(** * jail_fstab: a shallow embedding of [plugins/modules/jail_fstab.py]

    The module reads a jail's fstab through the TrueNAS middleware and
    walks the list of mount points the caller wants.  This development
    embeds [main] (lines 111-240 of the module; everything after the
    [exit_json] of line 240 is dead template code) and its nested helper
    [get_iocroot], and states what the code does and does not do.

    [main] is embedded whole and in parts: [main] itself, which stops at
    line 149; [main_with_client], lines 151-240, what [main] does once
    it holds a client; [main_after_list], lines 167-240, what it does
    with the answer of the LIST call.

    Conventions of the embedding:
    - the middleware client [mw] is an oracle: what a call answers may
      depend on the calls made before it, and a call either returns a
      value or raises; the transport that can stand behind it
      ([module_utils/midclt.py], reached through
      [module_utils/middleware.py]) is embedded on its own, after the
      module;
    - the module-level global [iocroot] and the sequence of middleware
      calls issued so far are the mutable state, threaded explicitly;
    - a Python [dict] whose iteration order matters ([fstab_info]) is an
      association list in insertion order. *)

From Stdlib Require Import String Ascii List ZArith Lia DecimalString.
Import ListNotations.
Open Scope string_scope.

Set Implicit Arguments.

(** ** Data *)

(** One element of the [fstab] parameter, after AnsibleModule has applied
    the argument spec of lines 130-138 ([src] and [mount] required, the
    other keys defaulted). *)
Record Fs := mkFs {
  src : string;
  mount : string;
  fstype : string;
  options : string;
  dump : Z;
  fsck_pass : Z
}.

(** The [entry] array of an fstab item as the middleware returns it:
    [[src, mount, fstype, options, dump, fsck_pass]] (comment of line 199).
    Field [e_mount] is [entry[1]]. *)
Record Entry := mkEntry {
  e_src : string;
  e_mount : string;
  e_fstype : string;
  e_options : string;
  e_dump : Z;
  e_fsck_pass : Z
}.

(** A value of the dict returned by [jail.fstab ... LIST]:
    [{"type": ..., "entry": [...]}]. *)
Record Item := mkItem {
  type : string;
  entry : Entry
}.

(** The dict returned by [jail.fstab ... LIST], in iteration order. *)
Definition FstabInfo := list (string * Item).

(** Elements of the local [changes] (comment of lines 177-181):
    [{ action: <action>, entry: <entry> }], the action one of "add",
    "remove", "replace", the entry an element of the [fstab] parameter. *)
Inductive ChangeAction := add | remove | replace.

Record Change := mkChange {
  action : ChangeAction;
  change_entry : Fs
}.

(** The [result] dict handed to [exit_json]. *)
Record Result := mkResult {
  changed : bool;
  msg : string;
  r_iocroot : option string;
  r_fstab : FstabInfo
}.

(** The locals of [main] that a run ends with. *)
Record Locals := mkLocals {
  result : Result;
  changes : list Change
}.

(** The exceptions a call can leave with, as far as the code tells them
    apart: the [Exception]s it raises itself, a [TypeError] when a call
    does not fit the callee's signature or a value is not iterable, an
    [AttributeError] when an object has no attribute of the name asked
    for, an [ImportError] when a client module is missing, and whatever
    a library call raised that the code does not catch. *)
Inductive Exn :=
| Exception (m : string)
| TypeError
| AttributeError
| ImportError
| Uncaught (e : string).

Inductive Res (A : Type) :=
| Ok (v : A)
| Err (e : Exn).
Arguments Ok {A} v.
Arguments Err {A} e.

(** How [main] leaves: through [module.exit_json( **result)] on line 240,
    through [module.fail_json(msg=...)] on line 165, or with an
    exception that nothing catches. *)
Inductive Outcome :=
| exit_json (l : Locals)
| fail_json (m : string)
| uncaught (e : Exn).

(** ** The middleware *)

(** The [action] key of a [jail.fstab] call. *)
Inductive FstabAction := LIST | ADD | REPLACE | REMOVE.

Inductive MwCall :=
| jail_get_iocroot
| jail_fstab (jail : string) (a : FstabAction).

Definition is_mutation (c : MwCall) : bool :=
  match c with
  | jail_fstab _ LIST => false
  | jail_fstab _ _ => true
  | jail_get_iocroot => false
  end.

(** A call returns or raises (the text of the exception is kept: line 165
    formats it). *)
Inductive Reply (A : Type) :=
| Raised (e : string)
| Returned (v : A).
Arguments Raised {A} e.
Arguments Returned {A} v.

(** The two calls [main] can make, answered from the history of calls. *)
Record Middleware := mkMiddleware {
  get_iocroot_reply : list MwCall -> Reply string;
  fstab_list_reply : list MwCall -> string -> Reply FstabInfo
}.

(** ** State *)

Record World := mkWorld {
  iocroot : option string;      (* the global of line 109 *)
  trace : list MwCall           (* middleware calls issued, oldest first *)
}.

(** The state of a fresh process. *)
Definition World0 : World := mkWorld None [].

Definition M (A : Type) : Type := World -> A * World.

Definition ret {A} (a : A) : M A := fun w => (a, w).

Definition bind {A B} (m : M A) (k : A -> M B) : M B :=
  fun w => let (a, w') := m w in k a w'.

Notation "x <- m ;; k" := (bind m (fun x => k))
  (at level 61, m at next level, right associativity).

(** [mw.call(f, ...)]: the call is recorded, the oracle answers. *)
Definition logged (c : MwCall) (w : World) : World :=
  mkWorld (iocroot w) (trace w ++ [c]).

(** ** Strings *)

Definition nl : string := String (ascii_of_nat 10) EmptyString.

(** What an f-string prints for a value that is a [str] or [None]. *)
Definition py_str (v : option string) : string :=
  match v with
  | Some s => s
  | None => "None"
  end.

(** [s.startswith(p)]. *)
Definition startswith (s p : string) : bool := String.prefix p s.

(** ** The class [MiddleWare] as [main] uses it *)

(** The attributes of the class object [MiddleWare] (middleware.py, lines
    16-55): its three methods.  [client] and [method] are attributes of
    instances, set by [__init__] (lines 40, 44 and 49). *)
Definition MiddleWare_class_dict : list string := ["__init__"; "call"; "job"].

(** [MW.<name>]: attribute lookup on the class object. *)
Definition class_getattr (name : string) : Res string :=
  if existsb (String.eqb name) MiddleWare_class_dict then Ok name
  else Err AttributeError.

(** ** The module *)

Section JailFstab.

Variable mw : Middleware.

(** Lines 112-125. *)
Definition get_iocroot : M (option string) := fun w =>
  match iocroot w with
  | Some r => (Some r, w)
  | None =>
      match get_iocroot_reply mw (trace w) with
      | Returned r =>
          (Some r, mkWorld (Some r) (trace w ++ [jail_get_iocroot]))
      | Raised _ =>
          (None, logged jail_get_iocroot w)
      end
  end.

(** Lines 168-169: keep the "USER" items. *)
Definition user_items (fstab_info : FstabInfo) : FstabInfo :=
  filter (fun kv => type (snd kv) =? "USER") fstab_info.

(** Lines 188-191: the full mount path of a wanted mount point. *)
Definition mount_full_of (jail : string) (fs : Fs) : M string :=
  if startswith (mount fs) "/" then ret (mount fs)
  else
    r <- get_iocroot ;;
    ret (py_str r ++ "/jails/" ++ jail ++ "/root/" ++ mount fs).

(** Lines 203-205: [next((v['entry'] for (k, v) in fstab_info.items()
    if v['entry'][1] == mount_full), None)]. *)
Fixpoint next_entry (fstab_info : FstabInfo) (mount_full : string)
  : option Entry :=
  match fstab_info with
  | [] => None
  | (_, v) :: rest =>
      if e_mount (entry v) =? mount_full then Some (entry v)
      else next_entry rest mount_full
  end.

Definition add_msg (l : Locals) (s : string) : Locals :=
  let r := result l in
  mkLocals (mkResult (changed r) (msg r ++ s) (r_iocroot r) (r_fstab r))
           (changes l).

(** Lines 185-230: the body of the loop over [fstab]. *)
Definition check_fs (jail : string) (fstab_info : FstabInfo) (fs : Fs)
  (l : Locals) : M Locals :=
  let l := add_msg l ("Checking " ++ mount fs ++ "." ++ nl) in
  mount_full <- mount_full_of jail fs ;;
  let l := add_msg l ("  mount_full: " ++ mount_full ++ nl) in
  match next_entry fstab_info mount_full with
  | None => ret (add_msg l ("No such entry. Need to add it." ++ nl))
  | Some _ => ret (add_msg l ("This entry exists. Need to check it." ++ nl))
  end.

(** Line 184: [for fs in fstab]. *)
Fixpoint for_fs (jail : string) (fstab_info : FstabInfo) (fstab : list Fs)
  (l : Locals) : M Locals :=
  match fstab with
  | [] => ret l
  | fs :: rest =>
      l' <- check_fs jail fstab_info fs l ;;
      for_fs jail fstab_info rest l'
  end.

(** Lines 167-240: what [main] does with the answer of the LIST call.
    [ioc] is the value stored under [result['iocroot']] on line 156. *)
Definition main_after_list (jail : string) (fstab : list Fs) (append : bool)
  (ioc : option string) (listed : FstabInfo) : M Locals :=
  let fstab_info := user_items listed in
  let l := mkLocals (mkResult false "" ioc fstab_info) [] in
  l <- for_fs jail fstab_info fstab l ;;
  ret (if append then add_msg l ("Other fs-es may exist." ++ nl)
       else add_msg l ("Ought to delete other fs-es." ++ nl)).

(** Lines 151-240: [main] from the point where it holds a client [mw],
    with [jail], [fstab] and [append] the three module parameters;
    [fstab] is [None] when the caller gave none (line 130 sets no
    default), and line 184 then iterates over [None]. *)
Definition main_with_client (jail : string) (fstab : option (list Fs))
  (append : bool) : M Outcome :=
  ioc <- get_iocroot ;;
  fun w =>
    let w' := logged (jail_fstab jail LIST) w in
    match fstab_list_reply mw (trace w) jail with
    | Raised e =>
        (fail_json ("Error looking up jail " ++ jail ++ ": " ++ e), w')
    | Returned listed =>
        match fstab with
        | None => (uncaught TypeError, w')
        | Some fstab =>
            let (l, w'') := main_after_list jail fstab append ioc listed w' in
            (exit_json l, w'')
        end
    end.

(** Lines 111-240.  Line 149, [mw = MW.client()], looks [client] up on
    the class [MiddleWare]; were it found, the call would give the
    client [mw]. *)
Definition main (jail : string) (fstab : option (list Fs)) (append : bool)
  : M Outcome :=
  match class_getattr "client" with
  | Err e => ret (uncaught e)
  | Ok _ => main_with_client jail fstab append
  end.

End JailFstab.

(** * module_utils: the midclt transport and the access layer *)

(** The value of a keyword argument: a [str] or a list of [str]. *)
Inductive PyVal :=
| PyStr (s : string)
| PyList (l : list string).

(** [**kwargs]: a dict, so no keyword occurs twice. *)
Definition Kwargs := list (string * PyVal).

(** [*v] in a list display: the elements of a list, the characters of a
    [str]. *)
Definition unpack (v : PyVal) : list string :=
  match v with
  | PyList l => l
  | PyStr s => map (fun c => String c EmptyString) (list_ascii_of_string s)
  end.

(** A double quote. *)
Definition dq : string := String (ascii_of_nat 34) EmptyString.

(** What an f-string prints for an [int]. *)
Definition str_int (z : Z) : string := NilZero.string_of_int (Z.to_int z).

Module Midclt.

Definition MIDCLT_CMD : string := "midclt".

(** How [subprocess.check_output] ends: with the output of a process
    that exited with status 0, with [CalledProcessError] for another
    status, or with another exception (no such command, ...). *)
Inductive CheckOutput :=
| Output (mid_out : string)
| CalledProcessError (returncode : Z) (stdout : string)
| OtherError (e : string).

(** How [json.loads] ends: with a value, with [JSONDecodeError], or with
    another exception (output that is not text, ...). *)
Inductive Loads (Json : Type) :=
| Loaded (retval : Json)
| JSONDecodeError (e : string)
| LoadsError (e : string).
Arguments Loaded {Json} retval.
Arguments JSONDecodeError {Json} e.
Arguments LoadsError {Json} e.

Section Transport.

(** The values [json.dumps] accepts, the two [json] functions, the
    process runner and the [repr] of [bytes], all from Python's library. *)
Variable Json : Type.
Variable dumps : Json -> string.
Variable loads : string -> Loads Json.
Variable check_output : list string -> CheckOutput.
Variable bytes_repr : string -> string.

(** Lines 65-73 of midclt.py: the command line. *)
Definition mid_args (func : string) (args : list Json) (opts : list string)
  : list string :=
  let mid_args := ([MIDCLT_CMD; "call"] ++ opts ++ [func])%list in
  if (0 <? length args)%nat
  then fold_left (fun mid_args arg => (mid_args ++ [dumps arg])%list)
                 args mid_args
  else mid_args.

(** Lines 75-89: run the command, parse what it printed. *)
Definition run (mid_args : list string) : Res Json :=
  match check_output mid_args with
  | CalledProcessError returncode stdout =>
      Err (Exception (MIDCLT_CMD ++ " exited with status " ++
                      str_int returncode ++ ": " ++
                      dq ++ bytes_repr stdout ++ dq))
  | OtherError e => Err (Uncaught e)
  | Output mid_out =>
      match loads mid_out with
      | JSONDecodeError e =>
          Err (Exception ("Can't parse " ++ MIDCLT_CMD ++ " output: " ++
                          bytes_repr mid_out ++ ": " ++ e))
      | LoadsError e => Err (Uncaught e)
      | Loaded retval => Ok retval
      end
  end.

(** [Midclt.call(func, *args, opts=opts)], lines 55-89. *)
Definition call (func : string) (args : list Json) (opts : list string)
  : Res Json :=
  run (mid_args func args opts).

(** [Midclt.job(func, *args)], lines 91-111. *)
Definition job (func : string) (args : list Json) : Res Json :=
  call func args ["-job"; "-jp"; "description"].

(** [Midclt.call(func, *args, **kwargs)]: the signature
    [call(func, *args, opts=[])] takes the keyword [opts] and no other
    (of two keywords, one is not [opts]). *)
Definition call_kw (func : string) (args : list Json) (kwargs : Kwargs)
  : Res Json :=
  match kwargs with
  | [] => call func args []
  | [(k, v)] => if k =? "opts" then call func args (unpack v)
                else Err TypeError
  | _ => Err TypeError
  end.

(** [Midclt.job(func, *args, **kwargs)]: the signature [job(func, *args)]
    takes no keyword. *)
Definition job_kw (func : string) (args : list Json) (kwargs : Kwargs)
  : Res Json :=
  match kwargs with
  | [] => job func args
  | _ => Err TypeError
  end.

End Transport.

End Midclt.

Module MiddleWare.

(** The class an instance holds in [self.client]. *)
Inductive Client := Midclt_class | MiddlewareClient_class.

Section Layer.

Variable Json : Type.
Variable dumps : Json -> string.
Variable loads : string -> Midclt.Loads Json.
Variable check_output : list string -> Midclt.CheckOutput.
Variable bytes_repr : string -> string.

(** Whether the import of a client's module succeeds on the host. *)
Variable importable : Client -> bool.

(** [MiddlewareClient.call] and [MiddlewareClient.job], of
    [module_utils/client.py]. *)
Variable client_call : string -> list Json -> Kwargs -> Res Json.
Variable client_job : string -> list Json -> Kwargs -> Res Json.

(** [__init__], lines 17-49 of middleware.py; [getenv] is the value of
    the environment variable [middleware_method], if set.  The instance
    is represented by its [client]. *)
Definition init (getenv : option string) : Res Client :=
  let method := match getenv with Some m => m | None => "client" end in
  if method =? "midclt" then
    if importable Midclt_class then Ok Midclt_class else Err ImportError
  else if method =? "client" then
    if importable MiddlewareClient_class then Ok MiddlewareClient_class
    else Err ImportError
  else Err (Exception ("Unknown middleware method " ++ method)).

(** [self.call(func, *args, **kwargs)], lines 51-52. *)
Definition call (self : Client) (func : string) (args : list Json)
  (kwargs : Kwargs) : Res Json :=
  match self with
  | Midclt_class =>
      Midclt.call_kw dumps loads check_output bytes_repr func args kwargs
  | MiddlewareClient_class => client_call func args kwargs
  end.

(** [self.job(func, *args, **kwargs)], lines 54-55. *)
Definition job (self : Client) (func : string) (args : list Json)
  (kwargs : Kwargs) : Res Json :=
  match self with
  | Midclt_class =>
      Midclt.job_kw dumps loads check_output bytes_repr func args kwargs
  | MiddlewareClient_class => client_job func args kwargs
  end.

End Layer.

End MiddleWare.

(** ** Example middlewares and inputs *)

(** A middleware whose two calls always return. *)
Definition mw_ok (root : string) (listed : FstabInfo) : Middleware :=
  mkMiddleware (fun _ => Returned root) (fun _ _ => Returned listed).

(** A middleware whose root lookup always raises. *)
Definition mw_noroot (listed : FstabInfo) : Middleware :=
  mkMiddleware (fun _ => Raised "no pool") (fun _ _ => Returned listed).

(** A middleware whose root lookup raises the first time it is asked
    and returns afterwards. *)
Definition mw_flaky (root : string) (listed : FstabInfo) : Middleware :=
  mkMiddleware
    (fun h => match h with [] => Raised "busy" | _ => Returned root end)
    (fun _ _ => Returned listed).

(** A middleware that knows no jail: the LIST call raises. *)
Definition mw_nojail (root : string) : Middleware :=
  mkMiddleware (fun _ => Returned root) (fun _ _ => Raised "jail not found").

(** The state in which a fresh process reaches line 167: the first
    lookup answered [ioc], the LIST call for [jail] was made. *)
Definition world_at_167 (ioc : option string) (jail : string) : World :=
  mkWorld ioc [jail_get_iocroot; jail_fstab jail LIST].

(** The two mount points of the module's EXAMPLES. *)
Definition fs_abs : Fs :=
  mkFs "/mnt/data/my-data" "/mnt/data/iocage/jails/j1/root/my-data"
       "nullfs" "ro" 0 0.

Definition fs_rel : Fs :=
  mkFs "/mnt/data/more-data" "data/more" "nullfs" "ro" 0 0.

Definition entry_of_fs (target : string) (fs : Fs) : Entry :=
  mkEntry (src fs) target (fstype fs) (options fs) (dump fs) (fsck_pass fs).

(** A relative mount point with a "..", a doubled separator and a
    trailing separator, under a root that ends in a separator. *)
Definition fs_odd : Fs := mkFs "/mnt/data/x" "a/../b//c/" "nullfs" "ro" 0 0.

(** An observed USER mount that no wanted mount point names. *)
Definition item_old : Item :=
  mkItem "USER" (mkEntry "/mnt/data/old" "/mnt/data/iocage/jails/j1/root/old"
                         "nullfs" "ro" 0 0).

(** An observed USER mount on the target of [fs_abs], mounted "rw". *)
Definition item_rw : Item :=
  mkItem "USER" (mkEntry (src fs_abs) (mount fs_abs) "nullfs" "rw" 0 0).

(** A SYSTEM item and three USER items; the SYSTEM item and the last two
    USER items all store the target of [fs_abs]. *)
Definition listed_dup : FstabInfo :=
  [ ("0", mkItem "SYSTEM" (entry_of_fs (mount fs_abs) fs_abs));
    ("1", mkItem "USER" (entry_of_fs "/mnt/data/iocage/jails/j1/root/old"
                                     fs_abs));
    ("2", mkItem "USER" (mkEntry "/mnt/data/first" (mount fs_abs)
                                 "nullfs" "rw" 0 0));
    ("3", mkItem "USER" (mkEntry "/mnt/data/second" (mount fs_abs)
                                 "nullfs" "ro" 0 0)) ].

(** A toy transport, for examples: JSON values are strings printed in
    quotes, an empty output does not parse, and the only function the
    process knows is [jail.get_iocroot]. *)
Definition toy_dumps (v : string) : string := dq ++ v ++ dq.

Definition toy_loads (out : string) : Midclt.Loads string :=
  if out =? "" then Midclt.JSONDecodeError "Expecting value"
  else Midclt.Loaded out.

Definition toy_check_output (argv : list string) : Midclt.CheckOutput :=
  if existsb (String.eqb "jail.get_iocroot") argv
  then Midclt.Output "/mnt/pool/iocage"
  else Midclt.CalledProcessError 1 "Method does not exist".

Definition toy_repr (b : string) : string := "b'" ++ b ++ "'".

(** ** Vocabulary of the statements *)

(** [w'] differs from [w] by root lookups only. *)
Definition lookups_only (w w' : World) : Prop :=
  exists n, trace w' = (trace w ++ repeat jail_get_iocroot n)%list.

(** [l'] differs from [l] in [result['msg']] only. *)
Definition msg_only (l l' : Locals) : Prop :=
  changes l' = changes l /\
  changed (result l') = changed (result l) /\
  r_iocroot (result l') = r_iocroot (result l) /\
  r_fstab (result l') = r_fstab (result l).

(** The calls a run for [jail] may make. *)
Definition allowed_call (jail : string) (c : MwCall) : Prop :=
  c = jail_get_iocroot \/ c = jail_fstab jail LIST.

(** The listing without its "SYSTEM" items. *)
Definition drop_system (listed : FstabInfo) : FstabInfo :=
  filter (fun kv => negb (type (snd kv) =? "SYSTEM")) listed.

(** A wanted mount point whose [mount] does not begin with "/". *)
Definition is_relative (fs : Fs) : bool := negb (startswith (mount fs) "/").

Definition relative_count (fstab : list Fs) : nat :=
  length (filter is_relative fstab).

(** [w'] differs from [w] by at most [n] root lookups. *)
Definition lookups_upto (n : nat) (w w' : World) : Prop :=
  exists m, m <= n /\
            trace w' = (trace w ++ repeat jail_get_iocroot m)%list.

(** The full path of a wanted mount point under a known root. *)
Definition full_path (root jail : string) (fs : Fs) : string :=
  if startswith (mount fs) "/" then mount fs
  else root ++ "/jails/" ++ jail ++ "/root/" ++ mount fs.

(** The three lines a wanted mount point adds to [result['msg']] when
    its full path is [full_path root jail fs]. *)
Definition msg_block (root jail : string) (fstab_info : FstabInfo) (fs : Fs)
  : string :=
  ("Checking " ++ mount fs ++ "." ++ nl) ++
  ("  mount_full: " ++ full_path root jail fs ++ nl) ++
  match next_entry fstab_info (full_path root jail fs) with
  | None => "No such entry. Need to add it." ++ nl
  | Some _ => "This entry exists. Need to check it." ++ nl
  end.

(** The blocks of a list of wanted mount points, in order. *)
Definition msg_blocks (root jail : string) (fstab_info : FstabInfo)
  (fstab : list Fs) : string :=
  fold_right (fun fs rest => msg_block root jail fstab_info fs ++ rest)
             "" fstab.

(** The last line of [result['msg']]. *)
Definition msg_last (append : bool) : string :=
  if append then "Other fs-es may exist." ++ nl
  else "Ought to delete other fs-es." ++ nl.

(** * What the module does *)

(** ** The root lookup *)

Lemma lookups_only_refl w : lookups_only w w.
Proof. exists 0%nat. simpl. now rewrite app_nil_r. Qed.

Lemma lookups_only_trans w1 w2 w3 :
  lookups_only w1 w2 -> lookups_only w2 w3 -> lookups_only w1 w3.
Proof.
  intros [n Hn] [m Hm]. exists (n + m)%nat.
  rewrite Hm, Hn, repeat_app, app_assoc. reflexivity.
Qed.

Lemma lookups_only_one w o :
  lookups_only w (mkWorld o (trace w ++ [jail_get_iocroot])).
Proof. now exists 1%nat. Qed.

Create HintDb fstab.
#[local] Hint Resolve lookups_only_refl lookups_only_one : fstab.

Section Lookup.

Variable mw : Middleware.

Lemma get_iocroot_cached w r :
  iocroot w = Some r -> get_iocroot mw w = (Some r, w).
Proof. unfold get_iocroot. now intros ->. Qed.

Lemma get_iocroot_returned w r :
  iocroot w = None ->
  get_iocroot_reply mw (trace w) = Returned r ->
  get_iocroot mw w = (Some r, mkWorld (Some r) (trace w ++ [jail_get_iocroot])).
Proof. unfold get_iocroot. now intros -> ->. Qed.

Lemma get_iocroot_raised w e :
  iocroot w = None ->
  get_iocroot_reply mw (trace w) = Raised e ->
  get_iocroot mw w = (None, mkWorld None (trace w ++ [jail_get_iocroot])).
Proof. unfold get_iocroot, logged. now intros -> ->. Qed.

(** Whatever happens, the lookup returns what the global then holds and
    issues nothing but [jail.get_iocroot]. *)
Lemma get_iocroot_inv w :
  fst (get_iocroot mw w) = iocroot (snd (get_iocroot mw w)) /\
  lookups_only w (snd (get_iocroot mw w)).
Proof.
  unfold get_iocroot.
  destruct (iocroot w) as [r|] eqn:Hc.
  - simpl. auto with fstab.
  - destruct (get_iocroot_reply mw (trace w)); simpl; unfold logged;
      rewrite ?Hc; auto with fstab.
Qed.

Lemma mount_full_of_inv jail fs w :
  lookups_only w (snd (mount_full_of mw jail fs w)).
Proof.
  unfold mount_full_of.
  destruct (startswith (mount fs) "/"); simpl; auto with fstab.
  unfold bind. pose proof (get_iocroot_inv w) as [_ H].
  destruct (get_iocroot mw w). exact H.
Qed.

Lemma mount_full_of_cached jail fs w r :
  iocroot w = Some r -> snd (mount_full_of mw jail fs w) = w.
Proof.
  intros Hc. unfold mount_full_of.
  destruct (startswith (mount fs) "/"); [reflexivity|].
  unfold bind. now rewrite (get_iocroot_cached _ Hc).
Qed.

End Lookup.

(** ** The loop over the wanted mount points *)

Lemma msg_only_refl l : msg_only l l.
Proof. repeat split. Qed.

Lemma msg_only_trans l1 l2 l3 :
  msg_only l1 l2 -> msg_only l2 l3 -> msg_only l1 l3.
Proof.
  unfold msg_only. intros (A1 & A2 & A3 & A4) (B1 & B2 & B3 & B4).
  repeat split; congruence.
Qed.

Lemma msg_only_add_msg l s : msg_only l (add_msg l s).
Proof. repeat split. Qed.

#[local] Hint Resolve msg_only_refl msg_only_add_msg : fstab.

Section Loop.

Variable mw : Middleware.
Variable jail : string.
Variable fstab_info : FstabInfo.

Lemma check_fs_inv fs l w :
  msg_only l (fst (check_fs mw jail fstab_info fs l w)) /\
  lookups_only w (snd (check_fs mw jail fstab_info fs l w)).
Proof.
  unfold check_fs, bind.
  pose proof (mount_full_of_inv mw jail fs w) as Hw.
  destruct (mount_full_of mw jail fs w) as [mount_full w1]. simpl in Hw.
  destruct (next_entry fstab_info mount_full); simpl; split; trivial;
    repeat split.
Qed.

Lemma check_fs_cached fs l w r :
  iocroot w = Some r -> snd (check_fs mw jail fstab_info fs l w) = w.
Proof.
  intros Hc. unfold check_fs, bind.
  pose proof (mount_full_of_cached mw jail fs w Hc) as Hw.
  destruct (mount_full_of mw jail fs w) as [mount_full w1]. simpl in Hw.
  now destruct (next_entry fstab_info mount_full).
Qed.

Lemma for_fs_inv fstab : forall l w,
  msg_only l (fst (for_fs mw jail fstab_info fstab l w)) /\
  lookups_only w (snd (for_fs mw jail fstab_info fstab l w)).
Proof.
  induction fstab as [|fs rest IH]; intros l w; simpl.
  - auto with fstab.
  - unfold bind.
    destruct (check_fs_inv fs l w) as [Hl Hw].
    destruct (check_fs mw jail fstab_info fs l w) as [l1 w1].
    destruct (IH l1 w1) as [Hl' Hw'].
    split; [eapply msg_only_trans | eapply lookups_only_trans]; eauto.
Qed.

(** Once the global holds a root, the loop makes no call at all. *)
Lemma for_fs_cached fstab : forall l w r,
  iocroot w = Some r -> snd (for_fs mw jail fstab_info fstab l w) = w.
Proof.
  induction fstab as [|fs rest IH]; intros l w r Hc; simpl.
  - reflexivity.
  - unfold bind.
    pose proof (check_fs_cached fs l w Hc) as Hw.
    destruct (check_fs mw jail fstab_info fs l w) as [l1 w1].
    simpl in Hw. subst w1. eauto.
Qed.

End Loop.

Section Run.

Variable mw : Middleware.

Lemma main_after_list_inv jail fstab append ioc listed w :
  let l := fst (main_after_list mw jail fstab append ioc listed w) in
  changes l = [] /\
  changed (result l) = false /\
  r_iocroot (result l) = ioc /\
  r_fstab (result l) = user_items listed /\
  lookups_only w (snd (main_after_list mw jail fstab append ioc listed w)).
Proof.
  unfold main_after_list, bind.
  set (l0 := mkLocals _ _).
  destruct (for_fs_inv mw jail (user_items listed) fstab l0 w)
    as [(H1 & H2 & H3 & H4) Hw].
  destruct (for_fs mw jail (user_items listed) fstab l0 w) as [l1 w1].
  simpl in *. destruct append; simpl; repeat split; assumption.
Qed.

End Run.

(** Bring the facts of [main_after_list_inv] about the run in the goal. *)
Ltac after_list_facts :=
  match goal with
  | |- context [main_after_list ?m ?j ?f ?a ?i ?l ?w] =>
      destruct (main_after_list_inv m j f a i l w)
        as (Hchanges & Hchanged & Hioc & Hfstab & Hworld)
  end.

(** ** Whole runs *)

Lemma allowed_call_reads jail c : allowed_call jail c -> is_mutation c = false.
Proof. now intros [-> | ->]. Qed.

Lemma Forall_lookups (P : MwCall -> Prop) n :
  P jail_get_iocroot -> Forall P (repeat jail_get_iocroot n).
Proof.
  intros H. apply Forall_forall. intros c Hc.
  now rewrite (repeat_spec _ _ _ Hc).
Qed.

Lemma lookups_only_Forall (P : MwCall -> Prop) w w' :
  P jail_get_iocroot -> lookups_only w w' ->
  Forall P (trace w) -> Forall P (trace w').
Proof.
  intros HP [n Hn] Hw. rewrite Hn. apply Forall_app. split; trivial.
  now apply Forall_lookups.
Qed.

(** From line 151 on, a fresh process asks for the root first: the
    state in which the LIST call is made. *)
Lemma first_lookup mw :
  trace (snd (get_iocroot mw World0)) = [jail_get_iocroot] /\
  fst (get_iocroot mw World0) = iocroot (snd (get_iocroot mw World0)).
Proof.
  unfold get_iocroot. simpl.
  now destruct (get_iocroot_reply mw []).
Qed.

(** Line 149 finds no [client] on the class: [main] stops there. *)
Lemma main_unfold mw jail fstab append w :
  main mw jail fstab append w = (uncaught AttributeError, w).
Proof. reflexivity. Qed.

(** The shape of [main_with_client] in a fresh process: the state after
    the first lookup, then the LIST call, then line 165, line 184 or the
    loop. *)
Lemma main_with_client_unfold mw jail fstab append :
  let w1 := snd (get_iocroot mw World0) in
  main_with_client mw jail fstab append World0 =
    match fstab_list_reply mw [jail_get_iocroot] jail with
    | Raised e =>
        (fail_json ("Error looking up jail " ++ jail ++ ": " ++ e),
         logged (jail_fstab jail LIST) w1)
    | Returned listed =>
        match fstab with
        | None => (uncaught TypeError, logged (jail_fstab jail LIST) w1)
        | Some wanted =>
            (exit_json
               (fst (main_after_list mw jail wanted append (iocroot w1)
                       listed (logged (jail_fstab jail LIST) w1))),
             snd (main_after_list mw jail wanted append (iocroot w1)
                    listed (logged (jail_fstab jail LIST) w1)))
        end
    end.
Proof.
  intros w1. unfold main_with_client, bind.
  destruct (first_lookup mw) as [Ht Hv]. fold w1 in Ht, Hv.
  destruct (get_iocroot mw World0) as [ioc w1'] eqn:E.
  simpl in Hv. subst w1. simpl in *. subst ioc. rewrite Ht.
  destruct (fstab_list_reply mw [jail_get_iocroot] jail); [reflexivity|].
  destruct fstab as [wanted|]; [|reflexivity].
  now destruct (main_after_list _ _ _ _ _ _ _).
Qed.

(** C5, as amended.  Whatever the jail name, the [fstab] list, the
    [append] flag and the middleware's answers, the module issues no
    [jail.fstab] call with action ADD, REPLACE or REMOVE: [main] as a
    whole makes none, and from line 151 on the only calls are
    [jail.get_iocroot] and [jail.fstab <jail> LIST].  From line 151 on,
    the run ends at the [exit_json] of line 240, with [changed = False]
    and an empty [changes], when the LIST call returns, and at the
    [fail_json] of line 165 when the LIST call raises. *)
Theorem main_reads_only mw jail fstab append :
  let whole := main mw jail (Some fstab) append World0 in
  let run := main_with_client mw jail (Some fstab) append World0 in
  Forall (fun c => is_mutation c = false) (trace (snd whole)) /\
  Forall (allowed_call jail) (trace (snd run)) /\
  Forall (fun c => is_mutation c = false) (trace (snd run)) /\
  match fstab_list_reply mw [jail_get_iocroot] jail with
  | Returned _ =>
      exists l, fst run = exit_json l /\
                changed (result l) = false /\ changes l = []
  | Raised e =>
      fst run = fail_json ("Error looking up jail " ++ jail ++ ": " ++ e)
  end.
Proof.
  intros whole run.
  assert (Hallowed : Forall (allowed_call jail) (trace (snd run))).
  { subst run. rewrite main_with_client_unfold.
    destruct (first_lookup mw) as [Ht _].
    assert (Hl : Forall (allowed_call jail)
                   (trace (logged (jail_fstab jail LIST)
                                  (snd (get_iocroot mw World0))))).
    { simpl. rewrite Ht.
      constructor; [now left | constructor; [now right | constructor]]. }
    destruct (fstab_list_reply mw [jail_get_iocroot] jail) as [e|listed];
      [exact Hl|].
    simpl. after_list_facts.
    exact (@lookups_only_Forall (allowed_call jail) _ _
             (or_introl eq_refl) Hworld Hl). }
  split; [subst whole; rewrite main_unfold; constructor|].
  split; [exact Hallowed|]. split.
  - eapply Forall_impl; [|exact Hallowed]. apply allowed_call_reads.
  - subst run. rewrite main_with_client_unfold.
    destruct (fstab_list_reply mw [jail_get_iocroot] jail) as [e|listed];
      [reflexivity|].
    eexists. split; [reflexivity|].
    after_list_facts. auto.
Qed.

(** C5 as stated fails: no run of [main] reaches line 240, since line 149
    raises; and from line 151 on, for a jail the middleware does not
    know, the run ends at line 165, not at line 240. *)
Lemma main_does_not_reach_line_240 :
  let mw := mw_nojail "/mnt/pool/iocage" in
  let whole := main mw "nosuch" (Some [fs_abs]) false World0 in
  let run := main_with_client mw "nosuch" (Some [fs_abs]) false World0 in
  fst whole = uncaught AttributeError /\
  ~ (exists l, fst whole = exit_json l) /\
  fst run = fail_json "Error looking up jail nosuch: jail not found" /\
  ~ (exists l, fst run = exit_json l).
Proof.
  split; [reflexivity|]. split; [intros [l H]; discriminate H|].
  split; [reflexivity|]. intros [l H]. discriminate H.
Qed.

(** ** Resolving the mount path *)

(** C8.  A [mount] that begins with "/" is its own full path, whatever
    the jail name, the cached root and the middleware's answers; no call
    is made for it. *)
Theorem absolute_mount_unchanged mw jail fs w :
  startswith (mount fs) "/" = true ->
  mount_full_of mw jail fs w = (mount fs, w).
Proof.
  intros Habs. unfold mount_full_of. now rewrite Habs.
Qed.

Lemma absolute_mount_unchanged_witness :
  mount_full_of (mw_noroot []) "j1" fs_abs World0
    = ("/mnt/data/iocage/jails/j1/root/my-data", World0).
Proof.
  apply (@absolute_mount_unchanged (mw_noroot []) "j1" fs_abs World0).
  reflexivity.
Defined.

(** C9.  A [mount] that does not begin with "/" resolves to the plain
    concatenation [root + "/jails/" + jail + "/root/" + mount], [root]
    being the jail root the lookup yields; the pieces are joined as they
    are. *)
Theorem relative_mount_composed mw jail fs w root w' :
  startswith (mount fs) "/" = false ->
  get_iocroot mw w = (Some root, w') ->
  mount_full_of mw jail fs w
    = (root ++ "/jails/" ++ jail ++ "/root/" ++ mount fs, w').
Proof.
  intros Hrel Hroot. unfold mount_full_of, bind.
  now rewrite Hrel, Hroot.
Qed.

Lemma relative_mount_composed_witness :
  mount_full_of (mw_ok "/mnt/pool/iocage/" []) "j1" fs_odd World0
    = ("/mnt/pool/iocage//jails/j1/root/a/../b//c/",
       mkWorld (Some "/mnt/pool/iocage/") [jail_get_iocroot]).
Proof.
  apply (@relative_mount_composed (mw_ok "/mnt/pool/iocage/" []) "j1"
           fs_odd World0 "/mnt/pool/iocage/"
           (mkWorld (Some "/mnt/pool/iocage/") [jail_get_iocroot]));
    reflexivity.
Defined.

(** ** Matching *)

Lemma next_entry_skip (before : FstabInfo) : forall rest mount_full,
  (forall k v, In (k, v) before -> e_mount (entry v) <> mount_full) ->
  next_entry (before ++ rest)%list mount_full = next_entry rest mount_full.
Proof.
  induction before as [|[k v] before IH]; intros rest mount_full Hno;
    simpl; [reflexivity|].
  destruct (e_mount (entry v) =? mount_full) eqn:E.
  - apply String.eqb_eq in E. exfalso. apply (Hno k v); simpl; auto.
  - apply IH. intros k' v' Hin. apply (Hno k' v'). now right.
Qed.

Lemma next_entry_found fstab_info mount_full e :
  next_entry fstab_info mount_full = Some e ->
  exists k v, In (k, v) fstab_info /\ entry v = e /\
              e_mount (entry v) = mount_full.
Proof.
  induction fstab_info as [|[k v] rest IH]; simpl; [discriminate|].
  destruct (e_mount (entry v) =? mount_full) eqn:E.
  - intros [= <-]. apply String.eqb_eq in E. exists k, v. auto.
  - intros H. destruct (IH H) as (k' & v' & Hin & He & Hm).
    exists k', v'. auto.
Qed.

(** C10.  Among the "USER" items, in the order the middleware returned
    them, the first whose stored [entry[1]] is equal, as a string, to the
    wanted full path is the one the matching step picks, whatever
    follows it. *)
Theorem first_match_wins listed mount_full before k v rest :
  user_items listed = (before ++ (k, v) :: rest)%list ->
  e_mount (entry v) = mount_full ->
  (forall k' v', In (k', v') before -> e_mount (entry v') <> mount_full) ->
  next_entry (user_items listed) mount_full = Some (entry v).
Proof.
  intros -> Hm Hno. rewrite (next_entry_skip _ _ Hno). simpl.
  apply String.eqb_eq in Hm. now rewrite Hm.
Qed.

Lemma first_match_wins_witness :
  next_entry (user_items listed_dup) (mount fs_abs)
    = Some (mkEntry "/mnt/data/first" (mount fs_abs) "nullfs" "rw" 0 0).
Proof.
  apply (@first_match_wins listed_dup (mount fs_abs)
           [("1", mkItem "USER"
                    (entry_of_fs "/mnt/data/iocage/jails/j1/root/old" fs_abs))]
           "2"
           (mkItem "USER"
              (mkEntry "/mnt/data/first" (mount fs_abs) "nullfs" "rw" 0 0))
           [("3", mkItem "USER"
                    (mkEntry "/mnt/data/second" (mount fs_abs)
                             "nullfs" "ro" 0 0))]).
  - reflexivity.
  - reflexivity.
  - intros k' v' [H | []]. injection H as _ <-. simpl. discriminate.
Defined.

(** The stored target is compared as it is: a USER item that stores the
    relative "data/more" is not the mount point [fs_rel], whose full path
    is "/mnt/pool/iocage/jails/j1/root/data/more". *)
Example stored_target_not_resolved :
  let listed := [("0", mkItem "USER" (entry_of_fs "data/more" fs_rel))] in
  let mw := mw_ok "/mnt/pool/iocage" listed in
  fst (mount_full_of mw "j1" fs_rel World0)
    = "/mnt/pool/iocage/jails/j1/root/data/more" /\
  next_entry (user_items listed) (fst (mount_full_of mw "j1" fs_rel World0))
    = None.
Proof. split; reflexivity. Qed.

(** ** SYSTEM items *)

Lemma user_items_drop_system listed :
  user_items (drop_system listed) = user_items listed.
Proof.
  unfold user_items, drop_system.
  induction listed as [|[k v] rest IH]; simpl; [reflexivity|].
  destruct (type v =? "SYSTEM") eqn:Es; simpl.
  - apply String.eqb_eq in Es. rewrite Es. simpl. exact IH.
  - destruct (type v =? "USER"); now rewrite IH.
Qed.

Lemma user_items_In listed k v :
  In (k, v) (user_items listed) <-> In (k, v) listed /\ type v = "USER".
Proof.
  unfold user_items. rewrite filter_In. simpl.
  now rewrite String.eqb_eq.
Qed.

(** C7.  What [main] does with a listing is what it does with the
    listing stripped of its SYSTEM items, under either [append]; a SYSTEM
    item is not in the table the matching step searches (which is also
    the [fstab] reported), every entry the matching step finds belongs to
    a USER item, and no change is produced at all. *)
Theorem system_items_inert mw jail fstab append ioc listed w :
  let run := main_after_list mw jail fstab append ioc listed w in
  run = main_after_list mw jail fstab append ioc (drop_system listed) w /\
  (forall k v, type v = "SYSTEM" ->
     ~ In (k, v) (user_items listed) /\
     ~ In (k, v) (r_fstab (result (fst run)))) /\
  (forall mount_full e,
     next_entry (user_items listed) mount_full = Some e ->
     exists k v, In (k, v) listed /\ type v = "USER" /\ entry v = e) /\
  (forall c, ~ In c (changes (fst run))).
Proof.
  intros run. subst run.
  destruct (main_after_list_inv mw jail fstab append ioc listed w)
    as (Hc & _ & _ & Hf & _).
  repeat split.
  - unfold main_after_list. now rewrite user_items_drop_system.
  - rewrite user_items_In. intros [_ Hu]. congruence.
  - rewrite Hf, user_items_In. intros [_ Hu]. congruence.
  - intros mount_full e Hn.
    destruct (next_entry_found _ _ Hn) as (k & v & Hin & He & _).
    apply user_items_In in Hin. exists k, v. tauto.
  - intros c. rewrite Hc. intros [].
Qed.

Lemma system_items_inert_witness :
  let mw := mw_ok "/mnt/pool/iocage" listed_dup in
  main_after_list mw "j1" [fs_abs] false None listed_dup World0
    = main_after_list mw "j1" [fs_abs] false None (tl listed_dup) World0 /\
  ~ In ("0", mkItem "SYSTEM" (entry_of_fs (mount fs_abs) fs_abs))
       (user_items listed_dup).
Proof.
  destruct (@system_items_inert (mw_ok "/mnt/pool/iocage" listed_dup) "j1"
              [fs_abs] false None listed_dup World0) as (H1 & H2 & _).
  split.
  - exact H1.
  - apply (H2 "0" (mkItem "SYSTEM" (entry_of_fs (mount fs_abs) fs_abs))).
    reflexivity.
Defined.

(** ** The cached root over a whole run *)

Lemma main_after_list_cached mw jail fstab append ioc listed w r :
  iocroot w = Some r ->
  snd (main_after_list mw jail fstab append ioc listed w) = w.
Proof.
  intros Hc. unfold main_after_list, bind.
  set (l0 := mkLocals _ _).
  pose proof (for_fs_cached mw jail (user_items listed) fstab l0 w Hc) as Hw.
  destruct (for_fs mw jail (user_items listed) fstab l0 w) as [l1 w1].
  simpl in Hw. now subst w1.
Qed.

(** C6, as amended.  The jail root is memoized in the process-wide
    global: (1) a lookup that returns stores the root in the global;
    (2) once the global holds a root, a lookup returns it and makes no
    call, every mount point is resolved under it, and the whole loop
    over the wanted mount points makes no call; (3) a lookup that raises
    is caught: [get_iocroot] returns [None] and leaves the global empty,
    and the next lookup asks the middleware again and caches what it
    then returns. *)
Theorem iocroot_memoized mw :
  (forall w r,
     iocroot w = None ->
     get_iocroot_reply mw (trace w) = Returned r ->
     get_iocroot mw w
       = (Some r, mkWorld (Some r) (trace w ++ [jail_get_iocroot]))) /\
  (forall w r,
     iocroot w = Some r ->
     get_iocroot mw w = (Some r, w) /\
     (forall jail fs,
        mount_full_of mw jail fs w = (full_path r jail fs, w)) /\
     (forall jail fstab append ioc listed,
        snd (main_after_list mw jail fstab append ioc listed w) = w)) /\
  (forall w e,
     iocroot w = None ->
     get_iocroot_reply mw (trace w) = Raised e ->
     let w1 := mkWorld None (trace w ++ [jail_get_iocroot]) in
     get_iocroot mw w = (None, w1) /\
     forall r, get_iocroot_reply mw (trace w1) = Returned r ->
       get_iocroot mw w1
         = (Some r,
            mkWorld (Some r)
                    (trace w ++ [jail_get_iocroot; jail_get_iocroot]))).
Proof.
  split; [|split].
  - intros w r. apply get_iocroot_returned.
  - intros w r Hc. split; [now apply get_iocroot_cached|]. split.
    + intros jail fs. unfold mount_full_of, full_path, bind.
      destruct (startswith (mount fs) "/"); [reflexivity|].
      now rewrite (get_iocroot_cached mw w Hc).
    + intros jail fstab append ioc listed.
      now apply main_after_list_cached with (r := r).
  - intros w e Hc Hroot w1. split.
    + now apply get_iocroot_raised with (e := e).
    + intros r Hretry.
      rewrite (@get_iocroot_returned mw w1 r eq_refl Hretry).
      subst w1. simpl. now rewrite <- app_assoc.
Qed.

Lemma iocroot_memoized_witness :
  let root := "/mnt/pool/iocage" in
  get_iocroot (mw_ok root []) World0
    = (Some root, mkWorld (Some root) [jail_get_iocroot]) /\
  mount_full_of (mw_ok root []) "j1" fs_rel (world_at_167 (Some root) "j1")
    = ("/mnt/pool/iocage/jails/j1/root/data/more",
       world_at_167 (Some root) "j1") /\
  snd (main_after_list (mw_ok root []) "j1" [fs_rel; fs_odd; fs_rel] false
                       (Some root) [] (world_at_167 (Some root) "j1"))
    = world_at_167 (Some root) "j1" /\
  get_iocroot (mw_flaky root []) World0
    = (None, mkWorld None [jail_get_iocroot]) /\
  get_iocroot (mw_flaky root []) (mkWorld None [jail_get_iocroot])
    = (Some root,
       mkWorld (Some root) [jail_get_iocroot; jail_get_iocroot]).
Proof.
  intros root.
  destruct (iocroot_memoized (mw_ok root [])) as (Hfill & Hreuse & _).
  destruct (iocroot_memoized (mw_flaky root [])) as (_ & _ & Hretry).
  destruct (Hreuse (world_at_167 (Some root) "j1") root eq_refl)
    as (_ & Hpath & Hloop).
  destruct (Hretry World0 "busy" eq_refl eq_refl) as [Hfail Hnext].
  split; [|split; [|split; [|split]]].
  - apply (Hfill World0 root); reflexivity.
  - apply (Hpath "j1" fs_rel).
  - apply (Hloop "j1" [fs_rel; fs_odd; fs_rel] false (Some root) []).
  - exact Hfail.
  - apply (Hnext root). reflexivity.
Defined.

(** C6 as stated fails in its last part: with the root lookup raising,
    [get_iocroot] returns [None], a relative mount point still resolves
    to a string, and the loop over the wanted mount points runs to its
    end. *)
Lemma root_failure_does_not_abort :
  let mw := mw_noroot [] in
  let run := main_after_list mw "j1" [fs_rel] false None []
                             (world_at_167 None "j1") in
  get_iocroot mw World0 = (None, mkWorld None [jail_get_iocroot]) /\
  fst (mount_full_of mw "j1" fs_rel (world_at_167 None "j1"))
    = "None/jails/j1/root/data/more" /\
  msg (result (fst run))
    = "Checking data/more." ++ nl ++
      "  mount_full: None/jails/j1/root/data/more" ++ nl ++
      "No such entry. Need to add it." ++ nl ++
      "Ought to delete other fs-es." ++ nl.
Proof. repeat split. Qed.

(** * The change list on four small inputs

    Nothing between line 182 and line 240 extends [changes] or sets
    [result['changed']], and [main] stops at line 149 before any of it:
    the runs below show what that means for a mount point to add, one to
    replace, one to remove, and for the [changed] flag. *)

(** C1 on the code.  Wanted: [fs_abs]; observed: nothing; [append] off.
    [main] raises at line 149.  Lines 167-240, entered with the empty
    listing, find no entry for the mount point, say so in [msg], make no
    call, and leave the change list empty with [changed] false. *)
Theorem unmatched_mount_not_added :
  let root := "/mnt/pool/iocage" in
  let w := world_at_167 (Some root) "j1" in
  let run := main_after_list (mw_ok root []) "j1" [fs_abs] false
                             (Some root) [] w in
  fst (main (mw_ok root []) "j1" (Some [fs_abs]) false World0)
    = uncaught AttributeError /\
  next_entry (user_items []) (mount fs_abs) = None /\
  msg (result (fst run))
    = "Checking /mnt/data/iocage/jails/j1/root/my-data." ++ nl ++
      "  mount_full: /mnt/data/iocage/jails/j1/root/my-data" ++ nl ++
      "No such entry. Need to add it." ++ nl ++
      "Ought to delete other fs-es." ++ nl /\
  changes (fst run) = [] /\
  changed (result (fst run)) = false /\
  snd run = w.
Proof. repeat split. Qed.

(** C2 on the code.  Wanted: [fs_abs]; observed: the USER mount
    [item_old], which [fs_abs] does not match; [append] off.  [main]
    raises at line 149.  Lines 167-240, entered with that listing, keep
    the item in the reported [fstab], leave the change list empty with
    [changed] false, and make no call, so no REMOVE. *)
Theorem unmatched_entry_not_removed :
  let root := "/mnt/pool/iocage" in
  let listed := [("0", item_old)] in
  let w := world_at_167 (Some root) "j1" in
  let run := main_after_list (mw_ok root listed) "j1" [fs_abs] false
                             (Some root) listed w in
  fst (main (mw_ok root listed) "j1" (Some [fs_abs]) false World0)
    = uncaught AttributeError /\
  next_entry (user_items listed) (mount fs_abs) = None /\
  r_fstab (result (fst run)) = listed /\
  changes (fst run) = [] /\
  changed (result (fst run)) = false /\
  snd run = w.
Proof. repeat split. Qed.

(** C3 on the code.  Wanted: [fs_abs] (options "ro"); observed: the USER
    mount [item_rw] on the same target with options "rw"; [append] off.
    [main] raises at line 149.  Lines 167-240, entered with that
    listing, find the entry, say so in [msg], compare no field, make no
    call, and leave the change list empty with [changed] false. *)
Theorem differing_entry_not_replaced :
  let root := "/mnt/pool/iocage" in
  let listed := [("0", item_rw)] in
  let w := world_at_167 (Some root) "j1" in
  let run := main_after_list (mw_ok root listed) "j1" [fs_abs] false
                             (Some root) listed w in
  fst (main (mw_ok root listed) "j1" (Some [fs_abs]) false World0)
    = uncaught AttributeError /\
  next_entry (user_items listed) (mount fs_abs) = Some (entry item_rw) /\
  e_options (entry item_rw) <> options fs_abs /\
  msg (result (fst run))
    = "Checking /mnt/data/iocage/jails/j1/root/my-data." ++ nl ++
      "  mount_full: /mnt/data/iocage/jails/j1/root/my-data" ++ nl ++
      "This entry exists. Need to check it." ++ nl ++
      "Ought to delete other fs-es." ++ nl /\
  changes (fst run) = [] /\
  changed (result (fst run)) = false /\
  snd run = w.
Proof.
  split; [reflexivity|]. split; [reflexivity|]. split; [discriminate|].
  repeat split.
Qed.


(** * Further properties of the module *)

(** ** What is reported *)

(** X1.  What lines 167-240 report as [fstab] is the items of type
    "USER" of the listing and nothing else, in the order of the listing,
    whatever mount points are wanted. *)
Theorem reported_fstab_is_user_items mw jail fstab append ioc listed w :
  let l := fst (main_after_list mw jail fstab append ioc listed w) in
  r_fstab (result l) = user_items listed /\
  forall k v, In (k, v) (r_fstab (result l)) <->
              In (k, v) listed /\ type v = "USER".
Proof.
  cbv zeta. after_list_facts. split; [assumption|].
  intros k v. rewrite Hfstab. apply user_items_In.
Qed.

(** X2.  From line 151 on, the [iocroot] a run reports is the answer of
    its first lookup (line 156): the root when that lookup returned,
    [None] when it raised, whatever later lookups of the same run
    answered. *)
Theorem reported_iocroot_is_first_lookup mw jail fstab append l w :
  main_with_client mw jail fstab append World0 = (exit_json l, w) ->
  r_iocroot (result l)
    = match get_iocroot_reply mw [] with
      | Returned r => Some r
      | Raised _ => None
      end.
Proof.
  rewrite main_with_client_unfold.
  destruct (fstab_list_reply mw [jail_get_iocroot] jail) as [e|listed];
    [discriminate|].
  destruct fstab as [wanted|]; [|discriminate].
  intros [= <- _]. after_list_facts. rewrite Hioc.
  unfold get_iocroot. simpl.
  now destruct (get_iocroot_reply mw []).
Qed.

(** With a lookup that fails once, the report says [None] although the
    global ends up holding the root. *)
Lemma reported_iocroot_is_first_lookup_witness :
  exists l w,
    main_with_client (mw_flaky "/mnt/pool/iocage" []) "j1" (Some [fs_rel])
                     false World0
      = (exit_json l, w) /\
    r_iocroot (result l) = None /\
    iocroot w = Some "/mnt/pool/iocage".
Proof.
  eexists. eexists. split; [reflexivity|]. split; [|reflexivity].
  eapply (@reported_iocroot_is_first_lookup
            (mw_flaky "/mnt/pool/iocage" []) "j1" (Some [fs_rel]) false).
  reflexivity.
Defined.

(** ** How many calls a run makes *)

Lemma lookups_upto_refl n w : lookups_upto n w w.
Proof. exists 0%nat. simpl. rewrite app_nil_r. split; [lia | reflexivity]. Qed.

Lemma lookups_upto_trans n m w1 w2 w3 :
  lookups_upto n w1 w2 -> lookups_upto m w2 w3 ->
  lookups_upto (n + m) w1 w3.
Proof.
  intros (a & Ha & Hw) (b & Hb & Hw'). exists (a + b)%nat.
  split; [lia|]. rewrite Hw', Hw, repeat_app, app_assoc. reflexivity.
Qed.

Lemma lookups_upto_weaken n m w w' :
  n <= m -> lookups_upto n w w' -> lookups_upto m w w'.
Proof. intros Hle (a & Ha & Hw). exists a. split; [lia | exact Hw]. Qed.

Section Budget.

Variable mw : Middleware.
Variable jail : string.
Variable fstab_info : FstabInfo.

Lemma get_iocroot_upto w : lookups_upto 1 w (snd (get_iocroot mw w)).
Proof.
  unfold get_iocroot. destruct (iocroot w).
  - apply lookups_upto_refl.
  - destruct (get_iocroot_reply mw (trace w)); exists 1%nat; auto.
Qed.

Lemma check_fs_world fs l w :
  snd (check_fs mw jail fstab_info fs l w) = snd (mount_full_of mw jail fs w).
Proof.
  unfold check_fs, bind.
  destruct (mount_full_of mw jail fs w) as [p w1]. simpl.
  now destruct (next_entry fstab_info p).
Qed.

Lemma mount_full_of_upto fs w :
  lookups_upto (if is_relative fs then 1 else 0) w
               (snd (mount_full_of mw jail fs w)).
Proof.
  unfold mount_full_of, is_relative, bind.
  destruct (startswith (mount fs) "/"); simpl.
  - apply lookups_upto_refl.
  - pose proof (get_iocroot_upto w) as H.
    now destruct (get_iocroot mw w) as [r w1].
Qed.

Lemma mount_full_of_raised fs w e :
  iocroot w = None ->
  get_iocroot_reply mw (trace w) = Raised e ->
  snd (mount_full_of mw jail fs w)
    = if is_relative fs
      then mkWorld None (trace w ++ [jail_get_iocroot])
      else w.
Proof.
  intros Hc He. unfold mount_full_of, is_relative, bind.
  destruct (startswith (mount fs) "/"); simpl; [reflexivity|].
  now rewrite (@get_iocroot_raised mw w e Hc He).
Qed.

Lemma check_fs_upto fs l w :
  lookups_upto (if is_relative fs then 1 else 0) w
               (snd (check_fs mw jail fstab_info fs l w)).
Proof. rewrite check_fs_world. apply mount_full_of_upto. Qed.

Lemma for_fs_upto fstab : forall l w,
  lookups_upto (relative_count fstab) w
               (snd (for_fs mw jail fstab_info fstab l w)).
Proof.
  unfold relative_count.
  induction fstab as [|fs rest IH]; intros l w; simpl.
  - apply lookups_upto_refl.
  - unfold bind. pose proof (check_fs_upto fs l w) as H1.
    destruct (check_fs mw jail fstab_info fs l w) as [l1 w1].
    specialize (IH l1 w1). simpl in H1.
    destruct (is_relative fs); simpl.
    + exact (lookups_upto_trans H1 IH).
    + exact (lookups_upto_trans H1 IH).
Qed.

(** With a lookup that raises whenever it is asked, every relative
    mount point costs one call and the global stays empty. *)
Lemma for_fs_all_raise fstab :
  (forall h, exists e, get_iocroot_reply mw h = Raised e) ->
  forall l w, iocroot w = None ->
  snd (for_fs mw jail fstab_info fstab l w)
    = mkWorld None
        (trace w ++ repeat jail_get_iocroot (relative_count fstab)).
Proof.
  intros Hdown. unfold relative_count.
  induction fstab as [|fs rest IH]; intros l w Hc; simpl.
  - rewrite app_nil_r. destruct w. simpl in Hc. now subst.
  - unfold bind. pose proof (check_fs_world fs l w) as Hw.
    destruct (check_fs mw jail fstab_info fs l w) as [l1 w1].
    simpl in Hw. subst w1.
    destruct (Hdown (trace w)) as [e He].
    rewrite (@mount_full_of_raised fs w e Hc He).
    destruct (is_relative fs); simpl.
    + rewrite IH by reflexivity. simpl. now rewrite <- app_assoc.
    + now apply IH.
Qed.

End Budget.

(** X3.  Lines 167-240 make no middleware call but root lookups, at
    most one per relative mount point: none for a list of absolute
    mount points, and never a [jail.fstab] call. *)
Theorem main_call_budget mw jail fstab append ioc listed w :
  exists n,
    n <= relative_count fstab /\
    trace (snd (main_after_list mw jail fstab append ioc listed w))
      = (trace w ++ repeat jail_get_iocroot n)%list.
Proof.
  unfold main_after_list, bind.
  match goal with
  | |- context [for_fs ?m ?j ?i ?f ?l ?w] =>
      destruct (for_fs_upto m j i f l w) as (n & Hn & Hw);
      destruct (for_fs m j i f l w) as [l1 w1]
  end.
  exists n. simpl in *. split; [exact Hn | exact Hw].
Qed.

(** X4.  When the root lookup raises every time, nothing is cached:
    lines 167-240, entered with an empty global, ask again for each
    relative mount point, making exactly [relative_count fstab] calls,
    and the global is still empty at the end. *)
Theorem main_retries_every_time mw jail fstab append ioc listed w :
  (forall h, exists e, get_iocroot_reply mw h = Raised e) ->
  iocroot w = None ->
  snd (main_after_list mw jail fstab append ioc listed w)
    = mkWorld None
        (trace w ++ repeat jail_get_iocroot (relative_count fstab)).
Proof.
  intros Hdown Hc. unfold main_after_list, bind.
  match goal with
  | |- context [for_fs ?m ?j ?i ?f ?l ?w] =>
      pose proof (@for_fs_all_raise m j i f Hdown l w Hc) as Hw;
      destruct (for_fs m j i f l w) as [l1 w1]
  end.
  simpl in *. exact Hw.
Qed.

Lemma main_retries_every_time_witness :
  snd (main_after_list (mw_noroot []) "j1" [fs_rel; fs_abs; fs_odd] false
                       None [] (world_at_167 None "j1"))
    = mkWorld None
        [jail_get_iocroot; jail_fstab "j1" LIST;
         jail_get_iocroot; jail_get_iocroot].
Proof.
  apply (@main_retries_every_time (mw_noroot []) "j1"
           [fs_rel; fs_abs; fs_odd] false None []
           (world_at_167 None "j1")).
  - intros h. exists "no pool". reflexivity.
  - reflexivity.
Defined.

(** ** The [append] flag *)

(** X5.  In lines 167-240, [append] decides the last line of [msg] and
    nothing else: with it on and with it off the same calls are made,
    the same global is left, the same [changed], [iocroot], [fstab] and
    changes are reported, and the messages agree up to that last
    line. *)
Theorem append_only_changes_last_line mw jail fstab ioc listed w :
  let yes := main_after_list mw jail fstab true ioc listed w in
  let no := main_after_list mw jail fstab false ioc listed w in
  snd yes = snd no /\
  changes (fst yes) = changes (fst no) /\
  changed (result (fst yes)) = changed (result (fst no)) /\
  r_iocroot (result (fst yes)) = r_iocroot (result (fst no)) /\
  r_fstab (result (fst yes)) = r_fstab (result (fst no)) /\
  exists log, msg (result (fst yes)) = log ++ msg_last true /\
              msg (result (fst no)) = log ++ msg_last false.
Proof.
  cbv zeta. unfold main_after_list, bind.
  match goal with
  | |- context [for_fs ?m ?j ?i ?f ?l ?w] =>
      destruct (for_fs m j i f l w) as [l1 w1]
  end.
  simpl. repeat split. now exists (msg (result l1)).
Qed.

(** ** Matching, continued *)

Lemma next_entry_none_iff fstab_info mount_full :
  next_entry fstab_info mount_full = None <->
  forall k v, In (k, v) fstab_info -> e_mount (entry v) <> mount_full.
Proof.
  split.
  - intros Hnone k v Hin Heq.
    induction fstab_info as [|[k' v'] rest IH]; [destruct Hin|].
    simpl in Hnone.
    destruct (e_mount (entry v') =? mount_full) eqn:E; [discriminate|].
    destruct Hin as [[= <- <-] | Hin]; [|now apply IH].
    apply String.eqb_neq in E. contradiction.
  - intros Hno. rewrite <- (app_nil_r fstab_info).
    now rewrite next_entry_skip.
Qed.

(** X6.  The matching step finds nothing exactly when no item of type
    "USER" in the listing stores the wanted full path: a wanted mount
    point is reported as missing when, and only when, no USER item is
    mounted there. *)
Theorem no_match_iff_no_user_item listed mount_full :
  next_entry (user_items listed) mount_full = None <->
  forall k v, In (k, v) listed -> type v = "USER" ->
              e_mount (entry v) <> mount_full.
Proof.
  rewrite next_entry_none_iff. split.
  - intros H k v Hin Hu. apply (H k v). now apply user_items_In.
  - intros H k v Hin. apply user_items_In in Hin. now apply (H k v).
Qed.

(** X7.  When the root lookup raises, the full path of a relative mount
    point begins with "None": it matches no entry whose stored target is
    absolute, so the mount point is taken as missing whatever is
    mounted. *)
Theorem failed_lookup_hides_relative_mount mw jail fs w e fstab_info :
  iocroot w = None ->
  get_iocroot_reply mw (trace w) = Raised e ->
  startswith (mount fs) "/" = false ->
  (forall k v, In (k, v) fstab_info ->
               startswith (e_mount (entry v)) "/" = true) ->
  next_entry fstab_info (fst (mount_full_of mw jail fs w)) = None.
Proof.
  intros Hc He Hrel Habs. apply next_entry_none_iff.
  intros k v Hin Heq. specialize (Habs k v Hin). rewrite Heq in Habs.
  unfold mount_full_of, bind in Habs.
  rewrite Hrel, (@get_iocroot_raised mw w e Hc He) in Habs.
  discriminate Habs.
Qed.

Lemma failed_lookup_hides_relative_mount_witness :
  let stored := "/mnt/pool/iocage/jails/j1/root/data/more" in
  next_entry [("0", mkItem "USER" (entry_of_fs stored fs_rel))]
             (fst (mount_full_of (mw_noroot []) "j1" fs_rel World0))
    = None.
Proof.
  apply (@failed_lookup_hides_relative_mount (mw_noroot []) "j1" fs_rel
           World0 "no pool").
  - reflexivity.
  - reflexivity.
  - reflexivity.
  - intros k v [[= _ <-] | []]. reflexivity.
Defined.

(** ** The message of a run *)

Lemma append_assoc_s (a b c : string) : (a ++ b) ++ c = a ++ (b ++ c).
Proof. induction a as [|x a IH]; simpl; [reflexivity | now rewrite IH]. Qed.

Lemma append_nil_r_s (a : string) : a ++ "" = a.
Proof. induction a as [|x a IH]; simpl; [reflexivity | now rewrite IH]. Qed.

Lemma add_msg_add_msg l a b : add_msg (add_msg l a) b = add_msg l (a ++ b).
Proof. unfold add_msg. simpl. now rewrite append_assoc_s. Qed.

Lemma add_msg_nil l : add_msg l "" = l.
Proof.
  destruct l as [[c m i f] ch]. unfold add_msg. simpl.
  now rewrite append_nil_r_s.
Qed.

Section Message.

Variable mw : Middleware.
Variable jail : string.
Variable fstab_info : FstabInfo.

Lemma mount_full_of_with_root fs w root :
  iocroot w = Some root ->
  mount_full_of mw jail fs w = (full_path root jail fs, w).
Proof.
  intros Hc. unfold mount_full_of, full_path, bind.
  destruct (startswith (mount fs) "/"); [reflexivity|].
  now rewrite (get_iocroot_cached mw w Hc).
Qed.

Lemma check_fs_with_root fs l w root :
  iocroot w = Some root ->
  check_fs mw jail fstab_info fs l w
    = (add_msg l (msg_block root jail fstab_info fs), w).
Proof.
  intros Hc. unfold check_fs, bind, msg_block.
  rewrite (mount_full_of_with_root fs w Hc).
  destruct (next_entry fstab_info (full_path root jail fs));
    unfold ret; now rewrite !add_msg_add_msg.
Qed.

Lemma for_fs_with_root fstab : forall l w root,
  iocroot w = Some root ->
  for_fs mw jail fstab_info fstab l w
    = (add_msg l (msg_blocks root jail fstab_info fstab), w).
Proof.
  induction fstab as [|fs rest IH]; intros l w root Hc; simpl.
  - unfold ret. now rewrite add_msg_nil.
  - unfold bind. rewrite (check_fs_with_root fs l w Hc).
    rewrite (IH _ w root Hc). now rewrite add_msg_add_msg.
Qed.

End Message.

(** X8.  When the global holds [root], the [msg] of lines 167-240 is,
    for each wanted mount point in the order given, the line "Checking
    <mount>.", the line "  mount_full: <full path>" and the verdict of
    the matching step, followed by the line that [append] selects;
    every relative mount point is resolved under that same [root], and
    no call is made. *)
Theorem main_msg_with_root mw jail fstab append ioc listed w root :
  iocroot w = Some root ->
  let run := main_after_list mw jail fstab append ioc listed w in
  msg (result (fst run))
    = msg_blocks root jail (user_items listed) fstab ++ msg_last append /\
  snd run = w.
Proof.
  intros Hc. cbv zeta. unfold main_after_list, bind.
  rewrite (@for_fs_with_root mw jail (user_items listed) fstab _ w root Hc).
  now destruct append.
Qed.

Lemma main_msg_with_root_witness :
  let root := "/mnt/pool/iocage" in
  let listed := [("0", item_rw)] in
  let run := main_after_list (mw_ok root listed) "j1" [fs_rel; fs_abs] true
                             (Some root) listed
                             (world_at_167 (Some root) "j1") in
  msg (result (fst run))
    = "Checking data/more." ++ nl ++
      "  mount_full: /mnt/pool/iocage/jails/j1/root/data/more" ++ nl ++
      "No such entry. Need to add it." ++ nl ++
      "Checking /mnt/data/iocage/jails/j1/root/my-data." ++ nl ++
      "  mount_full: /mnt/data/iocage/jails/j1/root/my-data" ++ nl ++
      "This entry exists. Need to check it." ++ nl ++
      "Other fs-es may exist." ++ nl /\
  snd run = world_at_167 (Some root) "j1".
Proof.
  intros root listed.
  apply (@main_msg_with_root (mw_ok root listed) "j1" [fs_rel; fs_abs]
           true (Some root) listed (world_at_167 (Some root) "j1") root).
  reflexivity.
Defined.

(** ** Where a run stops *)


(** X15.  From line 151 on, with no [fstab] given, the run asks for the
    root and lists the fstab, and then leaves at line 184 with
    [TypeError], [None] not being iterable, unless the LIST call raised,
    in which case it ends at the [fail_json] of line 165; it never
    reaches [exit_json]. *)
Theorem fstab_omitted_raises mw jail append :
  let run := main_with_client mw jail None append World0 in
  trace (snd run) = [jail_get_iocroot; jail_fstab jail LIST] /\
  match fstab_list_reply mw [jail_get_iocroot] jail with
  | Returned _ => fst run = uncaught TypeError
  | Raised e =>
      fst run = fail_json ("Error looking up jail " ++ jail ++ ": " ++ e)
  end.
Proof.
  cbv zeta. rewrite main_with_client_unfold.
  destruct (first_lookup mw) as [Ht _].
  destruct (fstab_list_reply mw [jail_get_iocroot] jail); simpl;
    rewrite Ht; split; reflexivity.
Qed.

(** * module_utils *)

Section MidcltFacts.

Variable Json : Type.
Variable dumps : Json -> string.
Variable loads : string -> Midclt.Loads Json.
Variable check_output : list string -> Midclt.CheckOutput.
Variable bytes_repr : string -> string.

Lemma fold_left_append (args : list Json) : forall acc : list string,
  fold_left (fun mid_args arg => mid_args ++ [dumps arg])%list args acc
    = (acc ++ map dumps args)%list.
Proof.
  induction args as [|a args IH]; intros acc; simpl.
  - now rewrite app_nil_r.
  - rewrite IH, <- app_assoc. reflexivity.
Qed.

Lemma skipn_length_app (pre suf : list string) :
  skipn (length pre) (pre ++ suf) = suf.
Proof. induction pre as [|x pre IH]; simpl; [reflexivity | exact IH]. Qed.

Lemma mid_args_eq func args opts :
  Midclt.mid_args dumps func args opts
    = ("midclt" :: "call" :: opts ++ func :: map dumps args)%list.
Proof.
  unfold Midclt.mid_args. destruct args as [|a args].
  - simpl. reflexivity.
  - change (0 <? length (a :: args))%nat with true. cbv iota.
    rewrite fold_left_append. simpl. now rewrite <- app_assoc.
Qed.

(** X9.  The command line [Midclt.call] builds is [midclt call], then the
    options, then the function name, then the arguments, each
    JSON-encoded, in the order given: the function name is word
    [2 + len(opts)] of [3 + len(opts) + len(args)]. *)
Theorem mid_args_layout func args opts :
  let argv := Midclt.mid_args dumps func args opts in
  argv = ("midclt" :: "call" :: opts ++ func :: map dumps args)%list /\
  length argv = (3 + length opts + length args)%nat /\
  nth_error argv (2 + length opts) = Some func /\
  skipn (3 + length opts) argv = map dumps args.
Proof.
  cbv zeta. rewrite mid_args_eq. split; [reflexivity|]. split; [|split].
  - simpl. rewrite length_app. simpl. rewrite length_map. lia.
  - simpl. rewrite nth_error_app2 by lia.
    now replace (length opts - length opts)%nat with 0%nat by lia.
  - set (pre := ("midclt" :: "call" :: opts ++ [func])%list).
    replace (3 + length opts)%nat with (length pre)
      by (subst pre; simpl; rewrite length_app; simpl; lia).
    replace ("midclt" :: "call" :: opts ++ func :: map dumps args)%list
      with (pre ++ map dumps args)%list
      by (subst pre; simpl; now rewrite <- app_assoc).
    apply skipn_length_app.
Qed.

(** X10.  [Midclt.call] returns a value exactly when the process exited
    with status 0 and its output parsed as JSON, and then returns the
    parsed output; a non-zero status and an output that does not parse
    each become an [Exception] that names the status, respectively the
    parse error, with the output. *)
Theorem call_outcome func args opts :
  let argv := Midclt.mid_args dumps func args opts in
  let res := Midclt.call dumps loads check_output bytes_repr func args opts in
  (forall v, res = Ok v <->
     exists out, check_output argv = Midclt.Output out /\
                 loads out = Midclt.Loaded v) /\
  (forall rc out, check_output argv = Midclt.CalledProcessError rc out ->
     res = Err (Exception ("midclt exited with status " ++ str_int rc ++
                           ": " ++ dq ++ bytes_repr out ++ dq))) /\
  (forall out e, check_output argv = Midclt.Output out ->
     loads out = Midclt.JSONDecodeError e ->
     res = Err (Exception ("Can't parse midclt output: " ++
                           bytes_repr out ++ ": " ++ e))).
Proof.
  simpl. unfold Midclt.call, Midclt.run. split; [|split].
  - intros v. split.
    + destruct (check_output _) as [out|rc out|e]; try discriminate.
      destruct (loads out) as [v'|e|e] eqn:El; try discriminate.
      intros [= <-]. now exists out.
    + intros (out & -> & ->). reflexivity.
  - intros rc out ->. reflexivity.
  - intros out e -> ->. reflexivity.
Qed.

End MidcltFacts.

Lemma call_outcome_witness :
  Midclt.call toy_dumps toy_loads toy_check_output toy_repr
              "jail.get_iocroot" [] []
    = Ok "/mnt/pool/iocage" /\
  Midclt.call toy_dumps toy_loads toy_check_output toy_repr
              "jail.nosuch" ["j1"] []
    = Err (Exception ("midclt exited with status 1: " ++
                      dq ++ "b'Method does not exist'" ++ dq)).
Proof.
  split.
  - apply (proj1 (@call_outcome string toy_dumps toy_loads toy_check_output
                    toy_repr "jail.get_iocroot" [] [])).
    exists "/mnt/pool/iocage". split; reflexivity.
  - apply (proj1 (proj2 (@call_outcome string toy_dumps toy_loads
                           toy_check_output toy_repr
                           "jail.nosuch" ["j1"] []))
             1%Z "Method does not exist").
    reflexivity.
Defined.

Section LayerFacts.

Variable Json : Type.
Variable dumps : Json -> string.
Variable loads : string -> Midclt.Loads Json.
Variable check_output : list string -> Midclt.CheckOutput.
Variable bytes_repr : string -> string.
Variable importable : MiddleWare.Client -> bool.
Variable client_call : string -> list Json -> Kwargs -> Res Json.
Variable client_job : string -> list Json -> Kwargs -> Res Json.

Let mw_call :=
  MiddleWare.call dumps loads check_output bytes_repr client_call
                  MiddleWare.Midclt_class.
Let mw_job :=
  MiddleWare.job dumps loads check_output bytes_repr client_job
                 MiddleWare.Midclt_class.
Let run := Midclt.run loads check_output bytes_repr.

(** X11.  Through the midclt client, [call(func, *args)] runs
    [midclt call func args...], [call(func, *args, opts=o)] runs
    [midclt call o... func args...], and [job(func, *args)] runs
    [midclt call -job -jp description func args...]; each returns or
    raises what running that command line does. *)
Theorem midclt_command_lines func args o :
  mw_call func args []
    = run ("midclt" :: "call" :: func :: map dumps args) /\
  mw_call func args [("opts", PyList o)]
    = run ("midclt" :: "call" :: o ++ func :: map dumps args)%list /\
  mw_job func args []
    = run ("midclt" :: "call" :: "-job" :: "-jp" :: "description"
             :: func :: map dumps args).
Proof.
  unfold mw_call, mw_job, run, MiddleWare.call, MiddleWare.job,
    Midclt.call_kw, Midclt.job_kw, Midclt.job, Midclt.call.
  change ("opts" =? "opts") with true. cbv iota.
  rewrite !mid_args_eq. repeat split.
Qed.

(** X12.  Through the midclt client, [call] with a keyword other than
    [opts] and [job] with any keyword raise [TypeError], whatever the
    process would have answered: no command is run.  The lookup of
    jail_fstab.py, [mw.call("jail.get_iocroot", output='str')], is such
    a call. *)
Theorem midclt_rejects_keywords func args kwargs :
  (forall k v, In (k, v) kwargs -> k <> "opts" ->
     mw_call func args kwargs = Err TypeError) /\
  (kwargs <> [] -> mw_job func args kwargs = Err TypeError).
Proof.
  unfold mw_call, mw_job, MiddleWare.call, MiddleWare.job,
    Midclt.call_kw, Midclt.job_kw.
  split.
  - intros k v Hin Hk.
    destruct kwargs as [|[k1 v1] [|kv2 rest]]; [destruct Hin| |reflexivity].
    destruct Hin as [[= -> ->] | []].
    apply String.eqb_neq in Hk. now rewrite Hk.
  - intros Hne. destruct kwargs; [now contradiction Hne | reflexivity].
Qed.

(** X13.  An instance is made for the method "midclt", for the method
    "client", and for an unset variable, which means "client"; any other
    value, compared as it is, raises [Exception] with "Unknown middleware
    method" and the value.  The client held is the midclt class exactly
    for "midclt", and its module was importable. *)
Theorem init_selects_client :
  MiddleWare.init importable None
    = MiddleWare.init importable (Some "client") /\
  (forall m, m <> "midclt" -> m <> "client" ->
     MiddleWare.init importable (Some m)
       = Err (Exception ("Unknown middleware method " ++ m))) /\
  (forall getenv c, MiddleWare.init importable getenv = Ok c ->
     importable c = true /\
     (c = MiddleWare.Midclt_class <-> getenv = Some "midclt")).
Proof.
  split; [reflexivity|]. split.
  - intros m H1 H2. unfold MiddleWare.init.
    apply String.eqb_neq in H1, H2. now rewrite H1, H2.
  - intros getenv c. unfold MiddleWare.init.
    destruct getenv as [m|].
    + destruct (m =? "midclt") eqn:E1.
      * apply String.eqb_eq in E1. subst m.
        destruct (importable MiddleWare.Midclt_class) eqn:Ei;
          [|discriminate].
        intros [= <-]. tauto.
      * destruct (m =? "client") eqn:E2; [|discriminate].
        apply String.eqb_eq in E2. subst m.
        destruct (importable MiddleWare.MiddlewareClient_class) eqn:Ei;
          [|discriminate].
        intros [= <-]. split; [assumption|].
        split; discriminate.
    + simpl.
      destruct (importable MiddleWare.MiddlewareClient_class) eqn:Ei;
        [|discriminate].
      intros [= <-]. split; [assumption|]. split; discriminate.
Qed.

End LayerFacts.

Lemma midclt_rejects_keywords_witness :
  MiddleWare.call toy_dumps toy_loads toy_check_output toy_repr
                  (fun _ _ _ => Err (Uncaught "no client"))
                  MiddleWare.Midclt_class
                  "jail.get_iocroot" [] [("output", PyStr "str")]
    = Err TypeError /\
  MiddleWare.call toy_dumps toy_loads toy_check_output toy_repr
                  (fun _ _ _ => Err (Uncaught "no client"))
                  MiddleWare.Midclt_class
                  "jail.get_iocroot" [] []
    = Ok "/mnt/pool/iocage".
Proof.
  split; [|reflexivity].
  apply (proj1 (@midclt_rejects_keywords string toy_dumps toy_loads
                  toy_check_output toy_repr
                  (fun _ _ _ => Err (Uncaught "no client"))
                  (fun _ _ _ => Err (Uncaught "no client"))
                  "jail.get_iocroot" [] [("output", PyStr "str")])
           "output" (PyStr "str")).
  - left. reflexivity.
  - discriminate.
Defined.

Lemma init_selects_client_witness :
  MiddleWare.init (fun _ => true) (Some "MIDCLT")
    = Err (Exception "Unknown middleware method MIDCLT") /\
  MiddleWare.init (fun _ => true) (Some "")
    = Err (Exception "Unknown middleware method ").
Proof.
  destruct (@init_selects_client (fun _ => true)) as (_ & Hbad & _).
  split; apply Hbad; discriminate.
Defined.
